(** * The OpenLibrary crawler of [main.py], embedded in Rocq

    The development follows the Python source function by function:

    - [Py]:  the built-in string operations the crawler relies on
             ([str.strip], [str.split], [in], [str.isdigit], [int], [float]);
    - [Re]:  a backtracking matcher for the fragment of [re] used by the
             patterns of the source, with capture groups;
    - [Bs4]: the document tree of BeautifulSoup with [find], [find_all]
             and [get_text];
    - the three crawlers, written in state-passing style over an abstract
      world that answers [requests.get].

    Text is modelled by [string], i.e. the ASCII range of Python's [str].
    Python's [int] is unbounded and modelled by [Z]; a [float] read from a
    decimal literal is modelled by the rational that literal denotes. *)

From Stdlib Require Import ZArith QArith Ascii String List Lia Bool DecimalString.
From Stdlib Require DecimalZ DecimalPos.
From stdpp Require Import base option list gmap strings.

Local Open Scope string_scope.
Local Open Scope Z_scope.
#[local] Set Warnings "-register-all".

(** ** Python built-ins *)

Module Py.

(** Exceptions the modelled code can raise. *)
Inductive exn := ValueError | TypeError | KeyError.

(** Result of a computation that may raise. *)
Inductive outcome (A : Type) :=
| Ok (a : A)
| Raise (e : exn).
Arguments Ok {A} a.
Arguments Raise {A} e.

Definition bind {A B} (m : outcome A) (f : A -> outcome B) : outcome B :=
  match m with
  | Ok a => f a
  | Raise e => Raise e
  end.

Definition code (c : ascii) : N := N_of_ascii c.

(** [str.isspace] on one character of the ASCII range. *)
Definition isspace (c : ascii) : bool :=
  let n := code c in
  ((9 <=? n) && (n <=? 13) || (28 <=? n) && (n <=? 32))%N.

Definition isdigit_char (c : ascii) : bool :=
  let n := code c in ((48 <=? n) && (n <=? 57))%N.

Definition isupper (c : ascii) : bool :=
  let n := code c in ((65 <=? n) && (n <=? 90))%N.

Definition islower (c : ascii) : bool :=
  let n := code c in ((97 <=? n) && (n <=? 122))%N.

(** A word character in the sense of [\w] and [\b]. *)
Definition isword (c : ascii) : bool :=
  isdigit_char c || isupper c || islower c || (code c =? 95)%N.

Definition lower (c : ascii) : ascii :=
  if isupper c then ascii_of_N (code c + 32) else c.

(** [s.lstrip()], [s.rstrip()] and [s.strip()]. *)
Fixpoint lstrip (s : string) : string :=
  match s with
  | String c s' => if isspace c then lstrip s' else s
  | EmptyString => EmptyString
  end.

Fixpoint rstrip (s : string) : string :=
  match s with
  | String c s' =>
      match rstrip s' with
      | EmptyString => if isspace c then EmptyString else String c EmptyString
      | t => String c t
      end
  | EmptyString => EmptyString
  end.

Definition strip (s : string) : string := rstrip (lstrip s).

(** [s.startswith(p)]. *)
Fixpoint startswith (p s : string) : bool :=
  match p, s with
  | EmptyString, _ => true
  | String a p', String b s' => Ascii.eqb a b && startswith p' s'
  | String _ _, EmptyString => false
  end.

Fixpoint drop (n : nat) (s : string) : string :=
  match n, s with
  | S n', String _ s' => drop n' s'
  | _, _ => s
  end.

(** [s.partition(sep)], with [None] when [sep] does not occur: the text
    before the first occurrence and the text after it. *)
Fixpoint partition (sep s : string) : option (string * string) :=
  if startswith sep s then Some (EmptyString, drop (String.length sep) s)
  else match s with
       | String c s' =>
           match partition sep s' with
           | Some (a, b) => Some (String c a, b)
           | None => None
           end
       | EmptyString => None
       end.

(** [sub in s]. *)
Definition contains (sub s : string) : bool :=
  match partition sub s with Some _ => true | None => false end.

(** [s.split(sep)] for a non-empty separator: occurrences are taken from
    left to right and do not overlap. The fuel bounds the number of
    pieces; [split] supplies the length of the text. *)
Fixpoint split_fuel (fuel : nat) (sep s : string) : list string :=
  match partition sep s with
  | None => [s]
  | Some (a, b) =>
      match fuel with
      | O => [s]
      | S fuel' => a :: split_fuel fuel' sep b
      end
  end.

Definition split (sep s : string) : list string :=
  split_fuel (String.length s) sep s.

(** [l[0]] and [l[-1]] on the result of a split, which is never empty. *)
Definition first (l : list string) : string := List.hd EmptyString l.
Definition last (l : list string) : string := List.last l EmptyString.

(** [s.isdigit()]: at least one character and all of them digits. *)
Fixpoint all_digits (s : string) : bool :=
  match s with
  | EmptyString => true
  | String c s' => isdigit_char c && all_digits s'
  end.

Definition isdigit (s : string) : bool :=
  match s with
  | EmptyString => false
  | String _ _ => all_digits s
  end.

Definition digit_value (c : ascii) : Z := Z.of_N (code c) - 48.

Fixpoint digits_value (acc : Z) (s : string) : Z :=
  match s with
  | EmptyString => acc
  | String c s' => digits_value (10 * acc + digit_value c) s'
  end.

(** [int(s)] for a string of decimal digits; anything else is a
    [ValueError] here. *)
Definition int (s : string) : outcome Z :=
  if isdigit s then Ok (digits_value 0 s) else Raise ValueError.

(** [float(s)] for a literal [digits.digits]: the rational it denotes,
    in lowest terms. *)
Definition float (s : string) : outcome Q :=
  match partition "." s with
  | Some (i, f) =>
      if isdigit i && isdigit f
      then Ok (Qred (Qmake (digits_value 0 (i ++ f))
                           (Pos.pow 10 (Pos.of_nat (String.length f)))))
      else Raise ValueError
  | None => Raise ValueError
  end.

(** [str(n)] for an integer. *)
Definition str (n : Z) : string := NilZero.string_of_int (Z.to_int n).

End Py.

(** ** The fragment of [re] used by the crawler *)

Module Re.

Inductive cclass := Digit | Space.

(** Pattern syntax: literals, the classes [\d] and [\s], concatenation,
    the greedy quantifiers [*] and [?], numbered groups and [\b]. *)
Inductive regex :=
| Eps
| Lit (a : ascii)
| Cls (k : cclass)
| Seq (r1 r2 : regex)
| Star (r : regex)
| Opt (r : regex)
| Group (i : nat) (r : regex)
| Bound.

(** [r+] and [r{n}]. *)
Definition Plus (r : regex) : regex := Seq r (Star r).

Fixpoint Rep (n : nat) (r : regex) : regex :=
  match n with
  | O => Eps
  | S n' => Seq r (Rep n' r)
  end.

(** A literal piece of pattern text. *)
Fixpoint Str (s : string) : regex :=
  match s with
  | EmptyString => Eps
  | String a s' => Seq (Lit a) (Str s')
  end.

(** Position in the subject: the character just read, if any, and the
    text still to be read. *)
Record cursor := Cursor { prev : option ascii; rest : string }.

(** Captured text by group number, most recent first. *)
Definition groups := list (nat * string).

Definition in_class (k : cclass) (c : ascii) : bool :=
  match k with
  | Digit => Py.isdigit_char c
  | Space => Py.isspace c
  end.

(** Literal comparison; [ic] is the flag [re.I]. *)
Definition lit_eq (ic : bool) (a b : ascii) : bool :=
  if ic then Ascii.eqb (Py.lower a) (Py.lower b) else Ascii.eqb a b.

Definition wordy (o : option ascii) : bool :=
  match o with
  | Some c => Py.isword c
  | None => false
  end.

Definition next (s : string) : option ascii :=
  match s with
  | String c _ => Some c
  | EmptyString => None
  end.

(** [\b]: exactly one side of the position is a word character. *)
Definition at_boundary (c : cursor) : bool :=
  xorb (wordy (prev c)) (wordy (next (rest c))).

(** The text read between two cursors of the same subject. *)
Fixpoint take (n : nat) (s : string) : string :=
  match n, s with
  | S n', String c s' => String c (take n' s')
  | _, _ => EmptyString
  end.

Definition consumed (c c' : cursor) : string :=
  take (String.length (rest c) - String.length (rest c')) (rest c).

(** Backtracking matcher in continuation-passing style. [k] is what
    remains to be matched after [r]; alternatives are tried in the order
    of [re]: a quantifier first tries one more repetition. A repetition
    of [Star] has to read at least one character, so the length of the
    remaining text bounds the loop. *)
Fixpoint run (ic : bool) (r : regex) (c : cursor) (g : groups)
    (k : cursor -> groups -> option groups) : option groups :=
  match r with
  | Eps => k c g
  | Lit a =>
      match rest c with
      | String b s => if lit_eq ic a b then k (Cursor (Some b) s) g else None
      | EmptyString => None
      end
  | Cls cl =>
      match rest c with
      | String b s => if in_class cl b then k (Cursor (Some b) s) g else None
      | EmptyString => None
      end
  | Seq r1 r2 => run ic r1 c g (fun c' g' => run ic r2 c' g' k)
  | Star r1 =>
      (fix loop (n : nat) (c : cursor) (g : groups) : option groups :=
         match n with
         | O => k c g
         | S n' =>
             match run ic r1 c g (fun c' g' =>
                     if (String.length (rest c') <? String.length (rest c))%nat
                     then loop n' c' g' else None) with
             | Some m => Some m
             | None => k c g
             end
         end) (String.length (rest c)) c g
  | Opt r1 =>
      match run ic r1 c g k with
      | Some m => Some m
      | None => k c g
      end
  | Group i r1 => run ic r1 c g (fun c' g' => k c' ((i, consumed c c') :: g'))
  | Bound => if at_boundary c then k c g else None
  end.

(** One attempt at a fixed start position. *)
Definition match_here (ic : bool) (r : regex) (c : cursor) : option groups :=
  run ic r c [] (fun _ g => Some g).

(** [re.search]: the first start position, from the left, at which the
    pattern matches. *)
Fixpoint search_from (ic : bool) (r : regex) (p : option ascii) (s : string)
    : option groups :=
  match match_here ic r (Cursor p s) with
  | Some g => Some g
  | None =>
      match s with
      | String a s' => search_from ic r (Some a) s'
      | EmptyString => None
      end
  end.

Definition search (ic : bool) (r : regex) (s : string) : option groups :=
  search_from ic r None s.

(** [m.group(i)]; [None] when the group took no part in the match. *)
Fixpoint group (m : groups) (i : nat) : option string :=
  match m with
  | (j, s) :: m' => if Nat.eqb i j then Some s else group m' i
  | [] => None
  end.

(** *** What a match is, independently of the search order

    [matches ic r c g c' g']: pattern [r] can read the text between the
    cursors [c] and [c'], turning the captures [g] into [g']. *)
Inductive matches (ic : bool) : regex -> cursor -> groups -> cursor -> groups -> Prop :=
| M_Eps c g : matches ic Eps c g c g
| M_Lit a b p s g :
    lit_eq ic a b = true ->
    matches ic (Lit a) (Cursor p (String b s)) g (Cursor (Some b) s) g
| M_Cls k b p s g :
    in_class k b = true ->
    matches ic (Cls k) (Cursor p (String b s)) g (Cursor (Some b) s) g
| M_Seq r1 r2 c g c1 g1 c2 g2 :
    matches ic r1 c g c1 g1 -> matches ic r2 c1 g1 c2 g2 ->
    matches ic (Seq r1 r2) c g c2 g2
| M_Star_stop r c g : matches ic (Star r) c g c g
| M_Star_more r c g c1 g1 c2 g2 :
    matches ic r c g c1 g1 -> matches ic (Star r) c1 g1 c2 g2 ->
    matches ic (Star r) c g c2 g2
| M_Opt_skip r c g : matches ic (Opt r) c g c g
| M_Opt_take r c g c1 g1 : matches ic r c g c1 g1 -> matches ic (Opt r) c g c1 g1
| M_Group i r c g c1 g1 :
    matches ic r c g c1 g1 ->
    matches ic (Group i r) c g c1 ((i, consumed c c1) :: g1)
| M_Bound c g : at_boundary c = true -> matches ic Bound c g c g.

(** Patterns without a capture group. *)
Fixpoint no_groups (r : regex) : bool :=
  match r with
  | Eps | Lit _ | Cls _ | Bound => true
  | Seq r1 r2 => no_groups r1 && no_groups r2
  | Star r1 | Opt r1 => no_groups r1
  | Group _ _ => false
  end.


End Re.

(** The patterns of the source. *)

(** [r'\((\d{4})\)'] *)
Definition year_re : Re.regex :=
  Re.Seq (Re.Lit "(") (Re.Seq (Re.Group 1 (Re.Rep 4 (Re.Cls Re.Digit))) (Re.Lit ")")).

(** [r'/subjects/'] *)
Definition subjects_re : Re.regex := Re.Str "/subjects/".

(** [r'(\d+)\s*editions?\b'], compiled with [re.I] *)
Definition edition_re : Re.regex :=
  Re.Seq (Re.Group 1 (Re.Plus (Re.Cls Re.Digit)))
    (Re.Seq (Re.Star (Re.Cls Re.Space))
       (Re.Seq (Re.Str "edition") (Re.Seq (Re.Opt (Re.Lit "s")) Re.Bound))).

(** [r'(\d\.\d+)\s*\((\d+)\s*ratings?\)'] *)
Definition rating_re : Re.regex :=
  Re.Seq (Re.Group 1 (Re.Seq (Re.Cls Re.Digit)
                        (Re.Seq (Re.Lit ".") (Re.Plus (Re.Cls Re.Digit)))))
    (Re.Seq (Re.Star (Re.Cls Re.Space))
       (Re.Seq (Re.Lit "(")
          (Re.Seq (Re.Group 2 (Re.Plus (Re.Cls Re.Digit)))
             (Re.Seq (Re.Star (Re.Cls Re.Space))
                (Re.Seq (Re.Str "rating")
                   (Re.Seq (Re.Opt (Re.Lit "s")) (Re.Lit ")"))))))).

(** ** The document tree of BeautifulSoup *)

Module Bs4.

(** A parsed page: text nodes and tags with their attribute dictionary.
    The parser has already lower-cased tag and attribute names. The
    BeautifulSoup object itself is the tag that holds the whole page. *)
Inductive node :=
| NavigableString (s : string)
| Tag (name : string) (attrs : gmap string string) (contents : list node).

(** [tag.descendants]: every node below, in document order. *)
Fixpoint descendants (n : node) : list node :=
  match n with
  | NavigableString _ => []
  | Tag _ _ cs => List.flat_map (fun c => c :: descendants c) cs
  end.

Definition own_text (n : node) : string :=
  match n with
  | NavigableString s => s
  | Tag _ _ _ => EmptyString
  end.

(** [tag.get_text()]: the text nodes below, joined without separator. *)
Definition get_text (n : node) : string :=
  match n with
  | NavigableString s => s
  | Tag _ _ _ => List.fold_right (fun d acc => own_text d ++ acc) EmptyString (descendants n)
  end.

(** The value of [class] is kept by BeautifulSoup as the list of its
    whitespace-separated tokens. *)
Fixpoint tokens_go (cur : string) (s : string) : list string :=
  match s with
  | EmptyString =>
      match cur with EmptyString => [] | _ => [String.rev cur] end
  | String c s' =>
      if Py.isspace c
      then match cur with
           | EmptyString => tokens_go EmptyString s'
           | _ => String.rev cur :: tokens_go EmptyString s'
           end
      else tokens_go (String c cur) s'
  end.

Definition tokens (s : string) : list string := tokens_go EmptyString s.

Fixpoint join (sep : string) (l : list string) : string :=
  match l with
  | [] => EmptyString
  | [x] => x
  | x :: l' => x ++ sep ++ join sep l'
  end.

(** The keyword filters of [find] and [find_all] that the crawler uses. *)
Inductive criterion :=
| AttrIs (key value : string)             (* key='value' *)
| ClassIs (value : string)                (* class_='value' *)
| AttrSearch (key : string) (r : Re.regex). (* key=re.compile(...) *)

(** One filter against the attribute dictionary of a tag. A class filter
    holds when some token of the class equals the value, or when the
    tokens joined by single blanks do. *)
Definition satisfies (attrs : gmap string string) (f : criterion) : bool :=
  match f with
  | AttrIs key value =>
      match attrs !! key with
      | Some v => String.eqb v value
      | None => false
      end
  | ClassIs value =>
      match attrs !! "class" with
      | Some v =>
          let ts := tokens v in
          List.existsb (fun t => String.eqb t value) ts
          || String.eqb (join " " ts) value
      | None => false
      end
  | AttrSearch key r =>
      match attrs !! key with
      | Some v => bool_decide (is_Some (Re.search false r v))
      | None => false
      end
  end.

Definition selects (name : string) (fs : list criterion) (n : node) : bool :=
  match n with
  | Tag nm attrs _ => String.eqb nm name && List.forallb (satisfies attrs) fs
  | NavigableString _ => false
  end.

(** [tag.find_all(name, ...)] and [tag.find(name, ...)]. *)
Definition find_all (name : string) (fs : list criterion) (n : node) : list node :=
  List.filter (selects name fs) (descendants n).

Definition find (name : string) (fs : list criterion) (n : node) : option node :=
  List.head (find_all name fs n).

(** [tag[key]]. *)
Definition getitem (n : node) (key : string) : Py.outcome string :=
  match n with
  | Tag _ attrs _ =>
      match attrs !! key with
      | Some v => Py.Ok v
      | None => Py.Raise Py.KeyError
      end
  | NavigableString _ => Py.Raise Py.TypeError
  end.

End Bs4.

(** ** The crawlers *)

(** Values stored in a detail record. *)
Inductive pyval :=
| VNone
| VStr (s : string)
| VList (l : list string)
| VInt (n : Z)
| VFloat (q : Q).

(** What [requests.get] produces: a response with its status code and
    body, or a [requests.RequestException]. *)
Inductive reply :=
| Response (status_code : Z) (content : string)
| RequestException.

(** The collaborators of the crawler, over a world they may change: the
    page transport, [time.sleep(0.5)] and the reading of a CSV file with
    [csv.DictReader] (field names and rows, or [None] when it raises). *)
Record Env (World : Type) := {
  requests_get : string -> World -> reply * World;
  time_sleep : World -> World;
  csv_read : string -> World -> option (list string * list (gmap string string)) * World
}.
Arguments requests_get {World} _ _ _.
Arguments time_sleep {World} _ _.
Arguments csv_read {World} _ _ _.

Section Crawler.

Context {World : Type}.
Variable E : Env World.

(** [BeautifulSoup(content, 'html.parser')]. *)
Variable html_parser : string -> Bs4.node.

(** [response.raise_for_status()] raises for the 4xx and 5xx codes. *)
Definition raises_for_status (status_code : Z) : bool :=
  (400 <=? status_code) && (status_code <? 600).

Definition get_page (url : string) (w : World) : option Bs4.node * World :=
  match requests_get E url w with
  | (Response status_code content, w') =>
      if raises_for_status status_code then (None, w')
      else (Some (html_parser content), w')
  | (RequestException, w') => (None, w')
  end.

(** The text of an element found by [find], trimmed. *)
Definition text_of (e : Bs4.node) : string := Py.strip (Bs4.get_text e).

(** [m.group(i)] handed to [int] or [float]. *)
Definition group_arg (m : Re.groups) (i : nat) : Py.outcome string :=
  match Re.group m i with
  | Some s => Py.Ok s
  | None => Py.Raise Py.TypeError
  end.

(** Lines 44 to 123 of [crawl_book_details_from_url], block by block as
    the comments of the source divide them. Each block receives the
    dictionary [book_details] built so far and returns it updated. *)

(* Title *)
Definition title_block (soup : Bs4.node) (book_details : gmap string pyval)
    : gmap string pyval :=
  let title_elem := Bs4.find "span" [Bs4.AttrIs "itemprop" "name"] soup in
  let title_elem :=
    match title_elem with
    | None => Bs4.find "h1" [] soup
    | Some _ => title_elem
    end in
  <[ "title" := VStr match title_elem with
                     | Some e => text_of e
                     | None => EmptyString
                     end ]> book_details.

(* Authors *)
Definition authors_block (soup : Bs4.node) (book_details : gmap string pyval)
    : gmap string pyval :=
  let author_links : list Bs4.node := [] in
  let ancestor := Bs4.find "div" [Bs4.ClassIs "work-title-and-author desktop"] soup in
  let author_links :=
    match ancestor with
    | Some a => Bs4.find_all "a" [Bs4.AttrIs "itemprop" "author"] a
    | None => author_links
    end in
  <[ "authors" := VList (List.map text_of author_links) ]> book_details.

(* First published date *)
Definition first_published_block (soup : Bs4.node) (book_details : gmap string pyval)
    : gmap string pyval :=
  let first_pub_span := Bs4.find "span" [Bs4.ClassIs "first-published-date"] soup in
  match first_pub_span with
  | Some e =>
      match Bs4.get_text e with
      | EmptyString => <[ "first_published" := VStr EmptyString ]> book_details
      | t =>
          match Re.search false year_re t with
          | Some year_match =>
              <[ "first_published" :=
                   match Re.group year_match 1 with
                   | Some year => VStr year
                   | None => VNone
                   end ]> book_details
          | None => <[ "first_published" := VStr (Py.strip t) ]> book_details
          end
      end
  | None => <[ "first_published" := VStr EmptyString ]> book_details
  end.

(* Publish date *)
Definition publish_date_block (soup : Bs4.node) (book_details : gmap string pyval)
    : gmap string pyval :=
  let publish_span := Bs4.find "span" [Bs4.AttrIs "itemprop" "datePublished"] soup in
  match publish_span with
  | Some e => <[ "publish_date" := VStr (text_of e) ]> book_details
  | None => <[ "publish_date" := VStr EmptyString ]> book_details
  end.

(* Subjects/Tags *)
Definition subjects_block (soup : Bs4.node) (book_details : gmap string pyval)
    : gmap string pyval :=
  let subject_links := Bs4.find_all "a" [Bs4.AttrSearch "href" subjects_re] soup in
  <[ "subjects" := VList (List.map text_of subject_links) ]> book_details.

(* Languages *)
Definition language_block (soup : Bs4.node) (book_details : gmap string pyval)
    : gmap string pyval :=
  let language := Bs4.find "span" [Bs4.AttrIs "itemprop" "inLanguage"] soup in
  match language with
  | Some e => <[ "language" := VStr (text_of e) ]> book_details
  | None => <[ "language" := VStr EmptyString ]> book_details
  end.

(* ISBN *)
Definition isbn_block (soup : Bs4.node) (book_details : gmap string pyval)
    : gmap string pyval :=
  let book_details := <[ "isbn" := VStr EmptyString ]> book_details in
  let isbn_dd := Bs4.find "dd" [Bs4.AttrIs "itemprop" "isbn"] soup in
  match isbn_dd with
  | Some e => <[ "isbn" := VStr (text_of e) ]> book_details
  | None => book_details
  end.

(* Edition count *)
Definition edition_count_block (soup : Bs4.node) (book_details : gmap string pyval)
    : Py.outcome (gmap string pyval) :=
  let edition_match := Re.search true edition_re (Bs4.get_text soup) in
  Py.bind (match edition_match with
           | Some m => Py.bind (group_arg m 1) Py.int
           | None => Py.Ok 0
           end) (fun edition_count =>
  Py.Ok (<[ "edition_count" := VInt edition_count ]> book_details)).

(* Rating *)
Definition rating_block (soup : Bs4.node) (book_details : gmap string pyval)
    : Py.outcome (gmap string pyval) :=
  let book_details := <[ "rating" := VFloat 0 ]> book_details in
  let book_details := <[ "number_of_ratings" := VInt 0 ]> book_details in
  let rating_span := Bs4.find "span" [Bs4.AttrIs "itemprop" "ratingValue"] soup in
  match rating_span with
  | Some e =>
      let rating_text := text_of e in
      match Re.search false rating_re rating_text with
      | Some rating_match =>
          Py.bind (Py.bind (group_arg rating_match 1) Py.float) (fun rating =>
          let book_details := <[ "rating" := VFloat rating ]> book_details in
          Py.bind (Py.bind (group_arg rating_match 2) Py.int) (fun n =>
          Py.Ok (<[ "number_of_ratings" := VInt n ]> book_details)))
      | None => Py.Ok book_details
      end
  | None => Py.Ok book_details
  end.

(* Pages *)
Definition pages_block (soup : Bs4.node) (book_details : gmap string pyval)
    : Py.outcome (gmap string pyval) :=
  let book_details := <[ "pages" := VInt 0 ]> book_details in
  let pages_span :=
    Bs4.find "span" [Bs4.ClassIs "edition-pages"; Bs4.AttrIs "itemprop" "numberOfPages"] soup in
  match pages_span with
  | Some e =>
      if Py.isdigit (text_of e)
      then Py.bind (Py.int (text_of e)) (fun pages =>
           Py.Ok (<[ "pages" := VInt pages ]> book_details))
      else Py.Ok book_details
  | None => Py.Ok book_details
  end.

(** The record built from a page that was fetched. *)
Definition book_details_of (book_url : string) (soup : Bs4.node)
    : Py.outcome (gmap string pyval) :=
  let book_details : gmap string pyval := {[ "source_url" := VStr book_url ]} in
  let book_details := title_block soup book_details in
  let book_details := authors_block soup book_details in
  let book_details := first_published_block soup book_details in
  let book_details := publish_date_block soup book_details in
  let book_details := subjects_block soup book_details in
  let book_details := language_block soup book_details in
  let book_details := isbn_block soup book_details in
  Py.bind (edition_count_block soup book_details) (fun book_details =>
  Py.bind (rating_block soup book_details) (fun book_details =>
  pages_block soup book_details)).

(** [crawl_book_details_from_url]: the empty dictionary when the page
    could not be fetched. *)
Definition crawl_book_details_from_url (book_url : string) (w : World)
    : Py.outcome (gmap string pyval) * World :=
  match get_page book_url w with
  | (None, w') => (Py.Ok ∅, w')
  | (Some soup, w') => (book_details_of book_url soup, w')
  end.

(** [row.get(key, '')]. *)
Definition row_get (row : gmap string string) (key : string) : string :=
  default EmptyString (row !! key).

(** The loop of [crawl_book_details_from_csv] (lines 142 to 151);
    [book_details] is the list the loop appends to. *)
Fixpoint crawl_rows (url_column : string) (rows : list (gmap string string))
    (book_details : list (gmap string pyval)) (w : World)
    : Py.outcome (list (gmap string pyval)) * World :=
  match rows with
  | [] => (Py.Ok book_details, w)
  | row :: rows' =>
      match row !! url_column with
      | None => (Py.Raise Py.KeyError, w)
      | Some url =>
          match crawl_book_details_from_url url w with
          | (Py.Raise e, w') => (Py.Raise e, w')
          | (Py.Ok details, w') =>
              if bool_decide (details = ∅)
              then crawl_rows url_column rows' book_details w'
              else
                let details := <[ "original_title" := VStr (row_get row "title") ]> details in
                let details := <[ "work_key" := VStr (row_get row "work_key") ]> details in
                crawl_rows url_column rows' (book_details ++ [details]) w'
          end
      end
  end.

(** [crawl_book_details_from_csv]: every exception ends the call with
    the empty list. *)
Definition crawl_book_details_from_csv (csv_file url_column : string) (w : World)
    : list (gmap string pyval) * World :=
  match csv_read E csv_file w with
  | (None, w') => ([], w')
  | (Some (fieldnames, rows), w') =>
      if bool_decide (url_column ∈ fieldnames)
      then match crawl_rows url_column rows [] w' with
           | (Py.Ok book_details, w'') => (book_details, w'')
           | (Py.Raise _, w'') => ([], w'')
           end
      else ([], w')
  end.

(** The search URL of one result page. *)
Definition search_url (subject : string) (page : Z) : string :=
  "https://openlibrary.org/search?q=subject_key%3A%22" ++ subject
    ++ "%22+edition_count%3A%7B5+TO+*%7D&page=" ++ Py.str page.

(** Lines 207 to 211: the work key read off the link. *)
Definition work_key_of (href : string) : string :=
  if Py.contains "/works/" href
  then let work_part := Py.last (Py.split "/works/" href) in
       Py.first (Py.split "?" (Py.first (Py.split "/" work_part)))
  else EmptyString.

(** The body of the loop over the items of a page (lines 192 to 217):
    [None] stands for [continue]. *)
Definition book_of_item (item : Bs4.node) : Py.outcome (option (gmap string string)) :=
  let title_link :=
    match Bs4.find "h3" [] item with
    | Some h3 => Bs4.find "a" [] h3
    | None => None
    end in
  let title_link :=
    match title_link with
    | None => Bs4.find "a" [Bs4.ClassIs "results"] item
    | Some _ => title_link
    end in
  match title_link with
  | None => Py.Ok None
  | Some link =>
      let title := text_of link in
      Py.bind (Bs4.getitem link "href") (fun href =>
      let book_url := "https://openlibrary.org" ++ href in
      let work_key := work_key_of href in
      Py.Ok (Some (<[ "book_url" := book_url ]>
                    (<[ "work_key" := work_key ]> {[ "title" := title ]}))))
  end.

Fixpoint page_books_of (book_items : list Bs4.node) (page_books : list (gmap string string))
    : Py.outcome (list (gmap string string)) :=
  match book_items with
  | [] => Py.Ok page_books
  | item :: book_items' =>
      match book_of_item item with
      | Py.Raise e => Py.Raise e
      | Py.Ok None => page_books_of book_items' page_books
      | Py.Ok (Some book) => page_books_of book_items' (page_books ++ [book])
      end
  end.

(** Lines 178 to 184: the item containers of a result page, by the
    primary selector and then the two alternatives. *)
Definition book_items_of (soup : Bs4.node) : list Bs4.node :=
  let book_items := Bs4.find_all "div" [Bs4.ClassIs "searchResultItem"] soup in
  let book_items :=
    match book_items with
    | [] => Bs4.find_all "div" [Bs4.ClassIs "book-item"] soup
    | _ => book_items
    end in
  match book_items with
  | [] => Bs4.find_all "li" [Bs4.ClassIs "searchResultItem"] soup
  | _ => book_items
  end.

(** The loop over the page numbers (lines 164 to 223); [books] is the
    list the loop extends. *)
Fixpoint crawl_pages (subject : string) (pages : list Z)
    (books : list (gmap string string)) (w : World)
    : Py.outcome (list (gmap string string)) * World :=
  match pages with
  | [] => (Py.Ok books, w)
  | page :: pages' =>
      match get_page (search_url subject page) w with
      | (None, w') => crawl_pages subject pages' books w'
      | (Some soup, w') =>
          match book_items_of soup with
          | [] => (Py.Ok books, w')
          | book_items =>
              match page_books_of book_items [] with
              | Py.Raise e => (Py.Raise e, w')
              | Py.Ok page_books =>
                  crawl_pages subject pages' (books ++ page_books) (time_sleep E w')
              end
          end
      end
  end.

(** [crawl_openlibrary_books_by_subject]; the pages are
    [range(1, max_pages + 1)]. *)
Definition crawl_openlibrary_books_by_subject (subject : string) (max_pages : Z) (w : World)
    : Py.outcome (list (gmap string string)) * World :=
  crawl_pages subject (seqZ 1 max_pages) [] w.

End Crawler.

(** A transport that also keeps a journal of the requests it served, in
    the order they were made, with what it answered. *)
Definition journal := list (string * reply).

Definition recording {World : Type} (E : Env World) : Env (World * journal) := {|
  requests_get url wj :=
    let '(r, w') := requests_get E url wj.1 in (r, (w', (wj.2 ++ [(url, r)])%list));
  time_sleep wj := (time_sleep E wj.1, wj.2);
  csv_read file wj := let '(x, w') := csv_read E file wj.1 in (x, (w', wj.2))
|}.

(** The page a reply turns into, as [get_page] decides it. *)
Definition page_of (html_parser : string -> Bs4.node) (r : reply) : option Bs4.node :=
  match r with
  | Response status_code content =>
      if raises_for_status status_code then None else Some (html_parser content)
  | RequestException => None
  end.

(** ** The fields of a detail record, one by one

    What each field of the record is, stated field by field from the
    page alone; [record_of] puts them together. The extraction of the
    source is compared with it below. *)

Definition title_of (soup : Bs4.node) : string :=
  match Bs4.find "span" [Bs4.AttrIs "itemprop" "name"] soup with
  | Some e => text_of e
  | None =>
      match Bs4.find "h1" [] soup with
      | Some e => text_of e
      | None => EmptyString
      end
  end.

Definition authors_of (soup : Bs4.node) : list string :=
  match Bs4.find "div" [Bs4.ClassIs "work-title-and-author desktop"] soup with
  | Some a => List.map text_of (Bs4.find_all "a" [Bs4.AttrIs "itemprop" "author"] a)
  | None => []
  end.

Definition first_published_of (soup : Bs4.node) : string :=
  match Bs4.find "span" [Bs4.ClassIs "first-published-date"] soup with
  | Some e =>
      match Re.search false year_re (Bs4.get_text e) with
      | Some year_match => default EmptyString (Re.group year_match 1)
      | None => text_of e
      end
  | None => EmptyString
  end.

Definition publish_date_of (soup : Bs4.node) : string :=
  match Bs4.find "span" [Bs4.AttrIs "itemprop" "datePublished"] soup with
  | Some e => text_of e
  | None => EmptyString
  end.

Definition subjects_of (soup : Bs4.node) : list string :=
  List.map text_of (Bs4.find_all "a" [Bs4.AttrSearch "href" subjects_re] soup).

Definition language_of (soup : Bs4.node) : string :=
  match Bs4.find "span" [Bs4.AttrIs "itemprop" "inLanguage"] soup with
  | Some e => text_of e
  | None => EmptyString
  end.

Definition isbn_of (soup : Bs4.node) : string :=
  match Bs4.find "dd" [Bs4.AttrIs "itemprop" "isbn"] soup with
  | Some e => text_of e
  | None => EmptyString
  end.

(** The number a string of digits denotes, and the number a decimal
    literal [d.ddd] denotes, given its two groups of digits. *)
Definition number (s : string) : Z := Py.digits_value 0 s.

Definition decimal (s : string) : Q :=
  match Py.partition "." s with
  | Some (i, f) => Qred (Qmake (number (i ++ f)) (Pos.pow 10 (Pos.of_nat (String.length f))))
  | None => 0
  end.

Definition edition_count_of (soup : Bs4.node) : Z :=
  match Re.search true edition_re (Bs4.get_text soup) with
  | Some m => number (default EmptyString (Re.group m 1))
  | None => 0
  end.

(** The rating and the number of ratings come together or not at all. *)
Definition rating_of (soup : Bs4.node) : Q * Z :=
  match Bs4.find "span" [Bs4.AttrIs "itemprop" "ratingValue"] soup with
  | Some e =>
      match Re.search false rating_re (text_of e) with
      | Some m =>
          (decimal (default EmptyString (Re.group m 1)),
           number (default EmptyString (Re.group m 2)))
      | None => (0%Q, 0)
      end
  | None => (0%Q, 0)
  end.

Definition pages_of (soup : Bs4.node) : Z :=
  match Bs4.find "span"
          [Bs4.ClassIs "edition-pages"; Bs4.AttrIs "itemprop" "numberOfPages"] soup with
  | Some e => if Py.isdigit (text_of e) then number (text_of e) else 0
  | None => 0
  end.

Definition record_of (book_url : string) (soup : Bs4.node) : gmap string pyval :=
  <[ "pages" := VInt (pages_of soup) ]>
  (<[ "number_of_ratings" := VInt (rating_of soup).2 ]>
  (<[ "rating" := VFloat (rating_of soup).1 ]>
  (<[ "edition_count" := VInt (edition_count_of soup) ]>
  (<[ "isbn" := VStr (isbn_of soup) ]>
  (<[ "language" := VStr (language_of soup) ]>
  (<[ "subjects" := VList (subjects_of soup) ]>
  (<[ "publish_date" := VStr (publish_date_of soup) ]>
  (<[ "first_published" := VStr (first_published_of soup) ]>
  (<[ "authors" := VList (authors_of soup) ]>
  (<[ "title" := VStr (title_of soup) ]>
  {[ "source_url" := VStr book_url ]})))))))))).

(** The twelve keys of a detail record. *)
Definition detail_keys : gset string :=
  list_to_set ["source_url"; "title"; "authors"; "first_published"; "publish_date";
               "subjects"; "language"; "isbn"; "edition_count"; "rating";
               "number_of_ratings"; "pages"].

(** ** Notions used to state the properties *)

(** The character before the position reached after reading [s]. *)
Fixpoint after (p : option ascii) (s : string) : option ascii :=
  match s with
  | EmptyString => p
  | String a s' => after (Some a) s'
  end.



(** The text [t] begins with a character of the class [k]. *)
Definition starts_in (k : Re.cclass) (t : string) : bool :=
  match Re.next t with
  | Some b => Re.in_class k b
  | None => false
  end.





(** The text before the first occurrence of a character. *)
Definition before (c : ascii) (s : string) : string :=
  match Py.partition (String c EmptyString) s with
  | Some (a, _) => a
  | None => s
  end.

(** The text up to the next path separator or the start of the query
    string. *)
Fixpoint segment (s : string) : string :=
  match s with
  | EmptyString => EmptyString
  | String c s' =>
      if Ascii.eqb c "/" || Ascii.eqb c "?" then EmptyString else String c (segment s')
  end.

(** What the batch crawler adds to a detail record. *)
Definition merged (row : gmap string string) (details : gmap string pyval)
    : gmap string pyval :=
  <[ "work_key" := VStr (row_get row "work_key") ]>
    (<[ "original_title" := VStr (row_get row "title") ]> details).





(** ** Sample pages and a sample site *)

Definition el (name : string) (attrs : list (string * string)) (contents : list Bs4.node)
    : Bs4.node :=
  Bs4.Tag name (list_to_map attrs) contents.

Definition document (contents : list Bs4.node) : Bs4.node := el "[document]" [] contents.

(** A detail page with every marker of the extraction. *)
Definition dune_page : Bs4.node :=
  document [
    el "div" [("class", "work-title-and-author desktop")] [
      el "h1" [] [el "span" [("itemprop", "name")] [Bs4.NavigableString " Dune "]];
      el "a" [("itemprop", "author"); ("href", "/authors/OL79034A")]
        [Bs4.NavigableString "Frank Herbert"]];
    el "span" [("class", "first-published-date")] [Bs4.NavigableString " (1965) "];
    el "span" [("itemprop", "datePublished")] [Bs4.NavigableString "August 1990"];
    el "a" [("href", "/subjects/science_fiction")] [Bs4.NavigableString "Science fiction"];
    el "span" [("itemprop", "inLanguage")] [Bs4.NavigableString "English"];
    el "dd" [("itemprop", "isbn")] [Bs4.NavigableString "0441172717"];
    el "span" [("itemprop", "ratingValue")] [Bs4.NavigableString "3.8 (8 ratings)"];
    el "span" [("class", "edition-pages"); ("itemprop", "numberOfPages")]
      [Bs4.NavigableString " 412 "];
    el "p" [] [Bs4.NavigableString " 7 editions "]].

(** A page with a heading only. *)
Definition heading_page : Bs4.node :=
  document [el "h1" [] [Bs4.NavigableString "Emma"]].


(** A page of text, without any marker. *)
Definition text_page (text : string) : Bs4.node :=
  document [el "p" [] [Bs4.NavigableString text]].

(** Result pages: two items, the second of them without link; and none. *)
Definition result_item (title href : string) : Bs4.node :=
  el "div" [("class", "searchResultItem")] [
    el "h3" [("class", "booktitle")] [
      el "a" [("class", "results"); ("href", href)] [Bs4.NavigableString title]]].

Definition results_page : Bs4.node :=
  document [
    result_item "The Lord of the Rings" "/works/OL27448W/The_Lord_of_the_Rings";
    el "div" [("class", "searchResultItem")] [Bs4.NavigableString "no link"];
    result_item "Dune" "/works/OL893415W?edition=key"].

Definition no_results_page : Bs4.node :=
  document [el "p" [] [Bs4.NavigableString "No results found."]].

(** The sample parser knows the sample pages by the body they are served
    with; any other body is a page of text. *)
Definition sample_parser (content : string) : Bs4.node :=
  if String.eqb content "dune" then dune_page
  else if String.eqb content "emma" then heading_page
  else if String.eqb content "results" then results_page
  else if String.eqb content "no results" then no_results_page
  else text_page content.

(** A site given by what it answers to each URL and by the files at
    hand; its world counts the requests served. *)
Definition site (web : string -> reply)
    (files : string -> option (list string * list (gmap string string))) : Env nat := {|
  requests_get url n := (web url, S n);
  time_sleep n := n;
  csv_read file n := (files file, n)
|}.

Definition no_files (file : string) : option (list string * list (gmap string string)) :=
  None.

Definition dune_url : string := "https://openlibrary.org/works/OL893415W".
Definition emma_url : string := "https://openlibrary.org/works/OL66554W".
Definition bare_url : string := "https://openlibrary.org/works/OL1W".
Definition lost_url : string := "https://openlibrary.org/works/OL0W".

Definition sample_web (url : string) : reply :=
  if String.eqb url dune_url then Response 200 "dune"
  else if String.eqb url emma_url then Response 200 "emma"
  else if String.eqb url bare_url then Response 200 "Nothing here"
  else if String.eqb url (search_url "science_fiction" 1) then Response 200 "results"
  else if String.eqb url (search_url "science_fiction" 2) then RequestException
  else if String.eqb url (search_url "science_fiction" 3) then Response 200 "no results"
  else if String.eqb url (search_url "science_fiction" 4) then Response 200 "results"
  else Response 404 "not found".

Definition summary_row (title work_key book_url : string) : gmap string string :=
  <[ "book_url" := book_url ]> (<[ "work_key" := work_key ]> {[ "title" := title ]}).

(** Three input rows; the page of the second one does not exist. *)
Definition sample_rows : list (gmap string string) :=
  [ summary_row "Dune" "OL893415W" dune_url;
    summary_row "Lost" "OL0W" lost_url;
    summary_row "Emma" "OL66554W" emma_url ].

Definition sample_files (file : string) : option (list string * list (gmap string string)) :=
  if String.eqb file "books.csv"
  then Some (["title"; "work_key"; "book_url"], sample_rows)
  else None.

Definition sample_site : Env nat := site sample_web sample_files.

(** ** Further notions about the crawlers *)

(** A text without whitespace at its start or at its end. *)
Definition trimmed (s : string) : Prop :=
  starts_in Re.Space s = false
  /\ from_option Py.isspace false (after None s) = false.

(** The character [c] does not occur in [s]. *)
Fixpoint free_of (c : ascii) (s : string) : bool :=
  match s with
  | EmptyString => true
  | String a s' => negb (Ascii.eqb a c) && free_of c s'
  end.

(** The keys of a summary record and of a record of the batch crawler. *)
Definition summary_keys : gset string :=
  list_to_set ["title"; "work_key"; "book_url"].

Definition batch_keys : gset string :=
  detail_keys ∪ list_to_set ["original_title"; "work_key"].

(** The shape of a summary record. *)
Definition summary_shape (book : gmap string string) : Prop :=
  dom book = summary_keys
  /\ exists title href,
       book !! "title" = Some title
       /\ trimmed title
       /\ book !! "book_url" = Some ("https://openlibrary.org" +:+ href)
       /\ book !! "work_key" = Some (work_key_of href).

(** The title link of an item container (lines 193 to 195): the first link
    of its first [h3], else its first link of class [results]. *)
Definition title_link_of (item : Bs4.node) : option Bs4.node :=
  match match Bs4.find "h3" [] item with
        | Some h3 => Bs4.find "a" [] h3
        | None => None
        end with
  | Some link => Some link
  | None => Bs4.find "a" [Bs4.ClassIs "results"] item
  end.












(** Rows with the URL column only, and the rows a discovery of the
    sample site gives. *)
Definition url_rows : list (gmap string string) :=
  [ {[ "book_url" := dune_url ]}; {[ "book_url" := lost_url ]} ].

Definition discovered_rows : list (gmap string string) :=
  [ summary_row "The Lord of the Rings" "OL27448W"
      "https://openlibrary.org/works/OL27448W/The_Lord_of_the_Rings";
    summary_row "Dune" "OL893415W" "https://openlibrary.org/works/OL893415W?edition=key" ].

Definition more_files (file : string) : option (list string * list (gmap string string)) :=
  if String.eqb file "urls.csv" then Some (["book_url"], url_rows)
  else if String.eqb file "found.csv"
       then Some (["title"; "work_key"; "book_url"], discovered_rows)
       else sample_files file.

Definition pipeline_site : Env nat := site sample_web more_files.

(** ** The model on small inputs *)

Example strip_example : Py.strip "  The Hobbit
 " = "The Hobbit".
Proof. reflexivity. Qed.

Example split_example :
  Py.split "/works/" "/works/OL27448W/The_Lord" = [""; "OL27448W/The_Lord"].
Proof. reflexivity. Qed.

Example float_example : Py.float "3.8" = Py.Ok (19 # 5)%Q.
Proof. reflexivity. Qed.

Example str_example : Py.str 12 = "12".
Proof. reflexivity. Qed.

Example year_example :
  Re.search false year_re "First published in (1924) " = Some [(1%nat, "1924")].
Proof. reflexivity. Qed.

Example edition_example :
  Re.search true edition_re "Showing 12 Editions of x" = Some [(1%nat, "12")].
Proof. reflexivity. Qed.

Example rating_example :
  Re.search false rating_re "3.8 (8 ratings)" = Some [(2%nat, "8"); (1%nat, "3.8")].
Proof. reflexivity. Qed.

Example rating_example_lone : Re.search false rating_re "4.2" = None.
Proof. reflexivity. Qed.

(** ** Facts about strings *)

Module PyFacts.
Import Py.

Lemma append_cons a s t : String a s ++ t = String a (s ++ t).
Proof. reflexivity. Qed.


Lemma append_nil_r s : s ++ EmptyString = s.
Proof. induction s as [|a s IH]; [done|]. by rewrite append_cons, IH. Qed.

Lemma append_assoc s t u : (s ++ t) ++ u = s ++ t ++ u.
Proof. induction s as [|a s IH]; [done|]. by rewrite !append_cons, IH. Qed.

Lemma length_append s t :
  String.length (s ++ t) = (String.length s + String.length t)%nat.
Proof. induction s as [|a s IH]; [done|]. rewrite append_cons. simpl. by rewrite IH. Qed.

Lemma all_digits_append s t :
  all_digits (s ++ t) = all_digits s && all_digits t.
Proof.
  induction s as [|a s IH]; [done|].
  rewrite append_cons. simpl. rewrite IH. by destruct (isdigit_char a).
Qed.

Lemma isdigit_cons a s :
  isdigit_char a = true -> all_digits s = true -> isdigit (String a s) = true.
Proof. intros Ha Hs. simpl. by rewrite Ha, Hs. Qed.

(** [int] does not raise on a string of digits. *)
Lemma int_digits s : isdigit s = true -> int s = Ok (digits_value 0 s).
Proof. intros H. unfold int. by rewrite H. Qed.

End PyFacts.

(** ** Facts about the matcher *)

Module ReFacts.
Import Py Re PyFacts.

Lemma take_append s t :
  take (String.length (s ++ t) - String.length t) (s ++ t) = s.
Proof.
  induction s as [|a s IH].
  - simpl. rewrite Nat.sub_diag. by destruct t.
  - rewrite append_cons. simpl String.length.
    rewrite length_append in *.
    replace (S (String.length s + String.length t) - String.length t)%nat
      with (S (String.length s + String.length t - String.length t)) by lia.
    simpl. by rewrite IH.
Qed.

Lemma consumed_append p q s t : consumed (Cursor p (s ++ t)) (Cursor q t) = s.
Proof. apply take_append. Qed.

(** Every result of the matcher is a match: the continuation was
    entered at the end of some way of reading [r]. *)
Lemma run_sound ic r :
  forall c g k m,
    run ic r c g k = Some m ->
    exists c' g', matches ic r c g c' g' /\ k c' g' = Some m.
Proof.
  induction r as [|a|cl|r1 IH1 r2 IH2|r IH|r IH|i r IH|]; intros c g k m H; simpl in H.
  - exists c, g. split; [constructor | done].
  - destruct c as [p [|b s]]; simpl in H; [done|].
    destruct (lit_eq ic a b) eqn:Hab; [|done].
    eexists _, _. split; [by constructor | done].
  - destruct c as [p [|b s]]; simpl in H; [done|].
    destruct (in_class cl b) eqn:Hb; [|done].
    eexists _, _. split; [by constructor | done].
  - apply IH1 in H as (c1 & g1 & H1 & H).
    apply IH2 in H as (c2 & g2 & H2 & H).
    exists c2, g2. split; [by econstructor | done].
  - revert H. generalize (String.length (rest c)). intros n. revert c g.
    induction n as [|n IHn]; intros c g H.
    + exists c, g. split; [constructor | done].
    + destruct (run ic r c g _) as [m0|] eqn:Hr in H.
      * injection H as ->.
        apply IH in Hr as (c1 & g1 & H1 & Hk).
        destruct (_ <? _)%nat in Hk; [|done].
        apply IHn in Hk as (c2 & g2 & H2 & Hk).
        exists c2, g2. split; [by eapply M_Star_more | done].
      * exists c, g. split; [constructor | done].
  - destruct (run ic r c g k) as [m0|] eqn:Hr.
    + injection H as ->. apply IH in Hr as (c1 & g1 & H1 & Hk).
      exists c1, g1. split; [by constructor | done].
    + exists c, g. split; [constructor | done].
  - apply IH in H as (c1 & g1 & H1 & Hk).
    eexists _, _. split; [by constructor | done].
  - destruct (at_boundary c) eqn:Hb; [|done].
    exists c, g. split; [by constructor | done].
Qed.

Lemma match_here_sound ic r c m :
  match_here ic r c = Some m -> exists c', matches ic r c [] c' m.
Proof.
  intros H. apply run_sound in H as (c' & g' & H & Hk).
  injection Hk as ->. by exists c'.
Qed.

Lemma search_from_sound ic r s :
  forall p m, search_from ic r p s = Some m ->
              exists c c', matches ic r c [] c' m.
Proof.
  induction s as [|a s IH]; intros p m H; simpl in H.
  - destruct (match_here ic r _) eqn:Hm; [|done].
    injection H as ->. apply match_here_sound in Hm as [c' Hm]. eauto.
  - destruct (match_here ic r _) eqn:Hm.
    + injection H as ->. apply match_here_sound in Hm as [c' Hm]. eauto.
    + eauto.
Qed.

Lemma search_sound ic r s m :
  search ic r s = Some m -> exists c c', matches ic r c [] c' m.
Proof. apply search_from_sound. Qed.

(** The text between the two cursors of a match. *)
Lemma matches_rest ic r c g c' g' :
  matches ic r c g c' g' -> exists s, rest c = s ++ rest c'.
Proof.
  induction 1 as [| | |? ? ? ? ? ? ? ? ? [s1 E1] ? [s2 E2]
                 | |? ? ? ? ? ? ? ? [s1 E1] ? [s2 E2]| |? ? ? ? ? ? IH|? ? ? ? ? ? ? IH|];
    try (by exists EmptyString); try (by eexists (String _ EmptyString)); try done.
  - exists (s1 ++ s2). by rewrite E1, E2, append_assoc.
  - exists (s1 ++ s2). by rewrite E1, E2, append_assoc.
Qed.

Lemma matches_no_groups ic r c g c' g' :
  matches ic r c g c' g' -> no_groups r = true -> g' = g.
Proof.
  induction 1; simpl; intros Hn; try done.
  - apply andb_prop in Hn as [Hn1 Hn2]. rewrite (IHmatches2 Hn2). auto.
  - rewrite (IHmatches2 Hn). auto.
  - auto.
Qed.

Lemma matches_seq_inv ic r1 r2 c g c2 g2 :
  matches ic (Seq r1 r2) c g c2 g2 ->
  exists c1 g1, matches ic r1 c g c1 g1 /\ matches ic r2 c1 g1 c2 g2.
Proof. inversion 1; subst. eauto. Qed.

Lemma matches_group_inv ic i r c g c1 g' :
  matches ic (Group i r) c g c1 g' ->
  exists g1, matches ic r c g c1 g1 /\ g' = (i, consumed c c1) :: g1.
Proof. inversion 1; subst. eauto. Qed.

Lemma matches_cls_inv ic k c g c' g' :
  matches ic (Cls k) c g c' g' ->
  exists b, rest c = String b (rest c') /\ in_class k b = true /\ g' = g.
Proof. inversion 1; subst. simpl. eauto. Qed.

Lemma matches_lit_inv ic a c g c' g' :
  matches ic (Lit a) c g c' g' ->
  exists b, rest c = String b (rest c') /\ lit_eq ic a b = true /\ g' = g.
Proof. inversion 1; subst. simpl. eauto. Qed.

(** [\d*] reads digits only. *)
Lemma matches_star_digit ic c g c' g' :
  matches ic (Star (Cls Digit)) c g c' g' ->
  g' = g /\ exists s, rest c = s ++ rest c' /\ all_digits s = true.
Proof.
  remember (Star (Cls Digit)) as r eqn:Er.
  induction 1 as [| | | | |r0 c g c1 g1 c2 g2 H1 _ H2 IH| | | |]; try done.
  - split; [done|]. by exists EmptyString.
  - injection Er as ->.
    apply matches_cls_inv in H1 as (b & E1 & Hb & ->).
    destruct (IH eq_refl) as (-> & s & E2 & Hs).
    split; [done|]. exists (String b s).
    rewrite E1, E2. split; [done|]. simpl in *. by rewrite Hb, Hs.
Qed.

(** [\d+] reads a non-empty string of digits. *)
Lemma matches_plus_digit ic c g c' g' :
  matches ic (Plus (Cls Digit)) c g c' g' ->
  g' = g /\ exists s, rest c = s ++ rest c' /\ isdigit s = true.
Proof.
  intros H. apply matches_seq_inv in H as (c1 & g1 & H1 & H2).
  apply matches_cls_inv in H1 as (b & E1 & Hb & ->).
  apply matches_star_digit in H2 as (-> & s & E2 & Hs).
  split; [done|]. exists (String b s). rewrite E1, E2.
  split; [done|]. by apply isdigit_cons.
Qed.

(** A group around [\d+] captures a non-empty string of digits. *)
Lemma matches_group_digits ic i c g c' g' :
  matches ic (Group i (Plus (Cls Digit))) c g c' g' ->
  exists s, g' = (i, s) :: g /\ isdigit s = true.
Proof.
  intros H. apply matches_group_inv in H as (g1 & H & ->).
  apply matches_plus_digit in H as (-> & s & E & Hs).
  exists s. split; [|done]. f_equal. f_equal.
  destruct c as [p t], c' as [q t']. simpl in E. subst t. apply consumed_append.
Qed.

End ReFacts.

(** ** What the patterns of the source capture *)

Module PatternFacts.
Import Py Re PyFacts ReFacts.

Lemma lit_eq_exact a b : lit_eq false a b = true -> b = a.
Proof. unfold lit_eq. intros H. by apply Ascii.eqb_eq in H. Qed.

(** [(\d+)\s*editions?\b]: the only group is a string of digits. *)
Lemma edition_search t m :
  search true edition_re t = Some m ->
  exists s, m = [(1%nat, s)] /\ isdigit s = true.
Proof.
  intros H. apply search_sound in H as (c & c' & H).
  apply matches_seq_inv in H as (c1 & g1 & H1 & H2).
  apply matches_group_digits in H1 as (s & -> & Hs).
  apply matches_no_groups in H2 as ->; [|done].
  by exists s.
Qed.

(** [(\d\.\d+)\s*\((\d+)\s*ratings?\)]: the first group is a decimal
    literal with one digit before the point, the second a string of
    digits. *)
Lemma rating_search t m :
  search false rating_re t = Some m ->
  exists b s n,
    m = [(2%nat, n); (1%nat, String b (String "." s))]
    /\ isdigit_char b = true /\ isdigit s = true /\ isdigit n = true.
Proof.
  intros H. apply search_sound in H as (c & c' & H).
  apply matches_seq_inv in H as (c1 & g1 & H1 & H).
  apply matches_group_inv in H1 as (g0 & H1 & ->).
  apply matches_seq_inv in H1 as (ca & ga & Ha & H1).
  apply matches_cls_inv in Ha as (b & Eb & Hb & ->).
  apply matches_seq_inv in H1 as (cb & gb & Hdot & H1).
  apply matches_lit_inv in Hdot as (b' & Edot & Hdot & ->).
  apply lit_eq_exact in Hdot as ->.
  apply matches_plus_digit in H1 as (-> & s & Es & Hs).
  apply matches_seq_inv in H as (c2 & g2 & Hsp & H).
  apply matches_no_groups in Hsp as ->; [|done].
  apply matches_seq_inv in H as (c3 & g3 & Hpar & H).
  apply matches_no_groups in Hpar as ->; [|done].
  apply matches_seq_inv in H as (c4 & g4 & H2 & H).
  apply matches_group_digits in H2 as (n & -> & Hn).
  apply matches_no_groups in H as ->; [|done].
  exists b, s, n. split; [|done]. do 3 f_equal.
  destruct c as [p t0], c1 as [q t1]. simpl in *.
  rewrite Eb, Edot, Es.
  apply (consumed_append p q (String b (String "." s)) t1).
Qed.

(** [\((\d{4})\)]: the group took part in the match. *)
Lemma year_search t m :
  search false year_re t = Some m -> exists y, m = [(1%nat, y)].
Proof.
  intros H. apply search_sound in H as (c & c' & H).
  apply matches_seq_inv in H as (c1 & g1 & H1 & H).
  apply matches_no_groups in H1 as ->; [|done].
  apply matches_seq_inv in H as (c2 & g2 & H2 & H).
  apply matches_group_inv in H2 as (g0 & H2 & ->).
  apply matches_no_groups in H2 as ->; [|done].
  apply matches_no_groups in H as ->; [|done].
  eauto.
Qed.

Lemma digit_not_point b : isdigit_char b = true -> Ascii.eqb "." b = false.
Proof.
  intros Hb. destruct (Ascii.eqb_spec "."%char b) as [<-|]; [|done].
  by vm_compute in Hb.
Qed.

(** [float] does not raise on such a literal. *)
Lemma float_decimal b s :
  isdigit_char b = true -> isdigit s = true ->
  float (String b (String "." s)) = Ok (decimal (String b (String "." s))).
Proof.
  intros Hb Hs. unfold float, decimal, number.
  cbn [partition startswith String.length drop].
  rewrite (digit_not_point b Hb), Ascii.eqb_refl. cbn [andb].
  cbn [isdigit all_digits]. rewrite Hb. cbn [andb]. by rewrite Hs.
Qed.

End PatternFacts.

(** ** The blocks of the extraction, one field each *)

Module BlockFacts.
Import Py PyFacts PatternFacts.

Lemma title_block_eq soup (d : gmap string pyval) :
  title_block soup d = <[ "title" := VStr (title_of soup) ]> d.
Proof.
  unfold title_block, title_of.
  destruct (Bs4.find "span" _ soup); [done|].
  by destruct (Bs4.find "h1" _ soup).
Qed.

Lemma authors_block_eq soup (d : gmap string pyval) :
  authors_block soup d = <[ "authors" := VList (authors_of soup) ]> d.
Proof. unfold authors_block, authors_of. by destruct (Bs4.find _ _ soup). Qed.

Lemma first_published_block_eq soup (d : gmap string pyval) :
  first_published_block soup d
  = <[ "first_published" := VStr (first_published_of soup) ]> d.
Proof.
  unfold first_published_block, first_published_of, text_of.
  destruct (Bs4.find _ _ soup) as [e|]; [|done].
  destruct (Bs4.get_text e) as [|a t] eqn:Et; [done|].
  destruct (Re.search false year_re (String a t)) as [m|] eqn:Em; [|done].
  apply year_search in Em as [y ->]. done.
Qed.

Lemma publish_date_block_eq soup (d : gmap string pyval) :
  publish_date_block soup d = <[ "publish_date" := VStr (publish_date_of soup) ]> d.
Proof. unfold publish_date_block, publish_date_of. by destruct (Bs4.find _ _ soup). Qed.

Lemma subjects_block_eq soup (d : gmap string pyval) :
  subjects_block soup d = <[ "subjects" := VList (subjects_of soup) ]> d.
Proof. done. Qed.

Lemma language_block_eq soup (d : gmap string pyval) :
  language_block soup d = <[ "language" := VStr (language_of soup) ]> d.
Proof. unfold language_block, language_of. by destruct (Bs4.find _ _ soup). Qed.

Lemma isbn_block_eq soup (d : gmap string pyval) :
  isbn_block soup d = <[ "isbn" := VStr (isbn_of soup) ]> d.
Proof.
  unfold isbn_block, isbn_of. destruct (Bs4.find _ _ soup); [|done].
  by rewrite insert_insert_eq.
Qed.

(** The three blocks that call [int] or [float] never raise. *)
Lemma edition_count_block_eq soup (d : gmap string pyval) :
  edition_count_block soup d
  = Ok (<[ "edition_count" := VInt (edition_count_of soup) ]> d).
Proof.
  unfold edition_count_block, edition_count_of.
  destruct (Re.search true edition_re _) as [m|] eqn:Em; [|done].
  apply edition_search in Em as (s & -> & Hs).
  simpl. by rewrite (int_digits s Hs).
Qed.

Lemma rating_block_eq soup (d : gmap string pyval) :
  rating_block soup d
  = Ok (<[ "number_of_ratings" := VInt (rating_of soup).2 ]>
          (<[ "rating" := VFloat (rating_of soup).1 ]> d)).
Proof.
  unfold rating_block, rating_of.
  destruct (Bs4.find _ _ soup) as [e|]; [|done].
  destruct (Re.search false rating_re _) as [m|] eqn:Em; [|done].
  apply rating_search in Em as (b & s & n & -> & Hb & Hs & Hn).
  cbn [group_arg Re.group Nat.eqb bind default fst snd].
  rewrite (float_decimal b s Hb Hs), (int_digits n Hn).
  cbn [bind]. f_equal.
  apply map_eq. intros k. rewrite !lookup_insert.
  by repeat case_decide.
Qed.

Lemma pages_block_eq soup (d : gmap string pyval) :
  pages_block soup d = Ok (<[ "pages" := VInt (pages_of soup) ]> d).
Proof.
  unfold pages_block, pages_of.
  destruct (Bs4.find _ _ soup) as [e|]; [|done].
  destruct (isdigit (text_of e)) eqn:He; [|done].
  rewrite (int_digits _ He). simpl. by rewrite insert_insert_eq.
Qed.

(** The extraction of the source builds [record_of], and never raises. *)
Lemma book_details_of_record book_url soup :
  book_details_of book_url soup = Ok (record_of book_url soup).
Proof.
  unfold book_details_of, record_of.
  rewrite title_block_eq, authors_block_eq, first_published_block_eq,
    publish_date_block_eq, subjects_block_eq, language_block_eq, isbn_block_eq,
    edition_count_block_eq.
  cbn [bind]. rewrite rating_block_eq. cbn [bind]. by rewrite pages_block_eq.
Qed.

End BlockFacts.

(** ** The detail record of one page *)

Section Details.

Context {World : Type}.
Variable E : Env World.
Variable html_parser : string -> Bs4.node.

Import Py.

Lemma get_page_page_of url w :
  get_page E html_parser url w
  = (page_of html_parser (requests_get E url w).1, (requests_get E url w).2).
Proof.
  unfold get_page, page_of. destruct (requests_get E url w) as [[code body|] w']; [|done].
  simpl. by destruct (raises_for_status code).
Qed.

Lemma crawl_fetched book_url w soup w' :
  get_page E html_parser book_url w = (Some soup, w') ->
  crawl_book_details_from_url E html_parser book_url w
  = (Ok (record_of book_url soup), w').
Proof.
  intros H. unfold crawl_book_details_from_url. rewrite H.
  by rewrite BlockFacts.book_details_of_record.
Qed.

Lemma crawl_not_fetched book_url w w' :
  get_page E html_parser book_url w = (None, w') ->
  crawl_book_details_from_url E html_parser book_url w = (Ok ∅, w').
Proof. intros H. unfold crawl_book_details_from_url. by rewrite H. Qed.

Lemma record_of_dom book_url soup : dom (record_of book_url soup) = detail_keys.
Proof.
  unfold record_of, detail_keys. rewrite !dom_insert_L, dom_singleton_L.
  simpl. set_solver.
Qed.

Lemma record_of_nonempty book_url soup : record_of book_url soup ≠ ∅.
Proof.
  intros H. apply (f_equal (fun d : gmap string pyval => d !! "pages")) in H.
  unfold record_of in H. by rewrite lookup_insert_eq, lookup_empty in H.
Qed.


End Details.

(** Reads one field of [record_of]. *)
Ltac record_field :=
  unfold record_of;
  repeat (rewrite lookup_insert_ne by done);
  first [ apply lookup_insert_eq | apply lookup_singleton_eq ].

Section Claims.

Context {World : Type}.
Variable E : Env World.
Variable html_parser : string -> Bs4.node.

Import Py.

(** C10. A detail record that was extracted carries, under
    [source_url], exactly the URL the extraction was called with. *)
Theorem source_url_is_the_requested_url book_url w d w' :
  crawl_book_details_from_url E html_parser book_url w = (Ok d, w') ->
  d ≠ ∅ ->
  d !! "source_url" = Some (VStr book_url).
Proof.
  intros H Hd.
  destruct (get_page E html_parser book_url w) as [[soup|] w1] eqn:Hp.
  - rewrite (crawl_fetched _ _ _ _ _ _ Hp) in H. injection H as <- <-.
    record_field.
  - rewrite (crawl_not_fetched _ _ _ _ _ Hp) in H. by injection H as <- <-.
Qed.





(** C8. The record depends on the page only: two extractions for the
    same URL that are served the same answer, in whatever state of
    whatever world, give the same record. *)
Theorem same_page_same_record {World' : Type} (E' : Env World') book_url w w' :
  (requests_get E book_url w).1 = (requests_get E' book_url w').1 ->
  (crawl_book_details_from_url E html_parser book_url w).1
  = (crawl_book_details_from_url E' html_parser book_url w').1.
Proof.
  intros H. unfold crawl_book_details_from_url.
  rewrite !get_page_page_of, H.
  by destruct (page_of html_parser _).
Qed.

End Claims.

(** ** Splitting a link *)

Module SplitFacts.
Import Py PyFacts.

Lemma startswith_drop sep s :
  startswith sep s = true -> s = sep ++ drop (String.length sep) s.
Proof.
  revert s. induction sep as [|a sep IH]; intros [|b s] H; simpl in *; try done.
  apply andb_prop in H as [Hab H]. apply Ascii.eqb_eq in Hab as ->.
  rewrite append_cons. f_equal. by apply IH.
Qed.

(** [partition] cuts the text at an occurrence of the separator. *)
Lemma partition_some sep s a b :
  partition sep s = Some (a, b) -> s = a ++ sep ++ b.
Proof.
  revert a b. induction s as [|c s IH]; intros a b H; simpl in H.
  - destruct (startswith sep EmptyString) eqn:Hs; [|done].
    injection H as <- <-. by apply startswith_drop.
  - destruct (startswith sep (String c s)) eqn:Hs.
    + injection H as <- <-. by apply startswith_drop.
    + destruct (partition sep s) as [[a' b']|]; [|done].
      injection H as <- <-. rewrite append_cons. f_equal. by apply IH.
Qed.

Lemma partition_shorter c sep s a b :
  partition (String c sep) s = Some (a, b) ->
  (String.length b < String.length s)%nat.
Proof.
  intros H. apply partition_some in H as ->.
  rewrite !length_append. simpl. lia.
Qed.

Lemma split_fuel_nonempty n sep s : split_fuel n sep s ≠ [].
Proof. destruct n; simpl; by destruct (partition sep s) as [[??]|]. Qed.

Lemma last_cons a (l : list string) : l ≠ [] -> last (a :: l) = last l.
Proof. unfold last. by destruct l. Qed.

(** The last piece of a split follows the last occurrence that the
    split takes, and holds no further occurrence. *)
Lemma split_fuel_last c sep n :
  forall s,
    (String.length s <= n)%nat ->
    contains (String c sep) s = true ->
    exists pre tail,
      s = pre ++ String c sep ++ tail
      /\ contains (String c sep) tail = false
      /\ last (split_fuel n (String c sep) s) = tail.
Proof.
  induction n as [|n IH]; intros s Hn Hc; unfold contains in Hc.
  - destruct s; [done | simpl in Hn; lia].
  - simpl. destruct (partition (String c sep) s) as [[a b]|] eqn:Hp; [|done].
    pose proof (partition_shorter _ _ _ _ _ Hp) as Hlt.
    rewrite last_cons by apply split_fuel_nonempty.
    destruct (contains (String c sep) b) eqn:Hb.
    + destruct (IH b ltac:(lia) Hb) as (pre & tail & -> & Ht & Hl).
      exists (a ++ String c sep ++ pre), tail.
      split; [|done]. apply partition_some in Hp as ->.
      by rewrite !append_assoc.
    + exists a, b. split; [by apply partition_some|]. split; [done|].
      unfold contains in Hb. destruct n; simpl.
      * by destruct (partition (String c sep) b) as [[??]|].
      * by destruct (partition (String c sep) b) as [[??]|].
Qed.

Lemma first_split c s : first (split (String c EmptyString) s) = before c s.
Proof.
  unfold split, before.
  destruct s as [|b s]; [done|]. simpl String.length.
  cbn [split_fuel].
  by destruct (partition (String c EmptyString) (String b s)) as [[??]|].
Qed.

Lemma before_cons c a s :
  before c (String a s) = if Ascii.eqb c a then EmptyString else String a (before c s).
Proof.
  unfold before. cbn [partition startswith]. destruct (Ascii.eqb c a); [done|].
  cbn [andb]. by destruct (partition (String c EmptyString) s) as [[??]|].
Qed.

Lemma before_empty c : before c EmptyString = EmptyString.
Proof. done. Qed.

Lemma segment_before s : before "?" (before "/" s) = segment s.
Proof.
  induction s as [|a s IH]; [done|].
  rewrite before_cons. simpl segment.
  rewrite (Ascii.eqb_sym a "/"), (Ascii.eqb_sym a "?").
  destruct (Ascii.eqb "/" a); [done|].
  rewrite before_cons. destruct (Ascii.eqb "?" a); [done|].
  simpl. by rewrite IH.
Qed.

End SplitFacts.

Section WorkKey.

Import Py SplitFacts.

(** C5. The work key is the piece of the link that follows [/works/],
    up to the next [/] or [?]; it is empty when the link has no
    [/works/]. The piece taken is the one after the last [/works/] of
    the link. *)
Theorem work_key_is_the_segment_after_works href :
  (contains "/works/" href = false -> work_key_of href = EmptyString)
  /\ (contains "/works/" href = true ->
      exists pre tail,
        href = pre ++ "/works/" ++ tail
        /\ contains "/works/" tail = false
        /\ work_key_of href = segment tail)
  /\ work_key_of "/works/OL27448W/The_Lord_of_the_Rings" = "OL27448W"
  /\ work_key_of "/works/OL27448W?extra=1" = "OL27448W"
  /\ (forall item book,
        book_of_item item = Ok (Some book) ->
        exists link href,
          Bs4.getitem link "href" = Ok href
          /\ book !! "book_url" = Some ("https://openlibrary.org" ++ href)
          /\ book !! "work_key" = Some (work_key_of href)).
Proof.
  split; [|split; [|split; [|split]]]; try reflexivity.
  - intros H. unfold work_key_of. by rewrite H.
  - intros H. unfold work_key_of. rewrite H.
    destruct (split_fuel_last _ _ (String.length href) href (le_n _) H)
      as (pre & tail & Hh & Ht & Hl).
    exists pre, tail. split; [done|]. split; [done|].
    unfold split at 3. rewrite Hl.
    by rewrite !first_split, segment_before.
  - intros item book. unfold book_of_item.
    destruct (match Bs4.find "h3" [] item with
              | Some h3 => Bs4.find "a" [] h3
              | None => None
              end) as [link|].
    + destruct (Bs4.getitem link "href") as [h|] eqn:Hh; [|done].
      simpl. intros [= <-]. exists link, h. by repeat split.
    + destruct (Bs4.find "a" _ item) as [link|]; [|done].
      destruct (Bs4.getitem link "href") as [h|] eqn:Hh; [|done].
      simpl. intros [= <-]. exists link, h. by repeat split.
Qed.

End WorkKey.

(** ** The search for the edition phrase *)

Module SearchFacts.
Import Py Re PyFacts ReFacts.
































End SearchFacts.

Section EditionCount.

Import Py SearchFacts.


End EditionCount.

(** ** The two loops, run against the recording transport *)

Section Loops.

Local Open Scope list_scope.

Context {World : Type}.
Variable E : Env World.
Variable html_parser : string -> Bs4.node.

Import Py.









End Loops.

(** ** The properties at work on the sample site *)

Section Samples.

Import Py.

Lemma source_url_witness :
  crawl_book_details_from_url sample_site sample_parser dune_url 0%nat
  = (Ok (record_of dune_url dune_page), 1%nat)
  /\ record_of dune_url dune_page ≠ ∅
  /\ record_of dune_url dune_page !! "source_url" = Some (VStr dune_url).
Proof.
  assert (H : crawl_book_details_from_url sample_site sample_parser dune_url 0%nat
              = (Ok (record_of dune_url dune_page), 1%nat))
    by (vm_compute; reflexivity).
  split; [exact H|]. split; [apply record_of_nonempty|].
  exact (source_url_is_the_requested_url sample_site sample_parser dune_url 0%nat _ 1%nat
           H (record_of_nonempty _ _)).
Defined.





Lemma same_page_witness :
  (requests_get sample_site dune_url 0%nat).1 = (requests_get sample_site dune_url 1%nat).1
  /\ (crawl_book_details_from_url sample_site sample_parser dune_url 0%nat).1
     = (crawl_book_details_from_url sample_site sample_parser dune_url 1%nat).1.
Proof.
  split; [reflexivity|].
  exact (same_page_same_record sample_site sample_parser sample_site dune_url 0%nat 1%nat eq_refl).
Defined.

Lemma work_key_witness :
  contains "/works/" "/books/OL7353617M" = false
  /\ work_key_of "/books/OL7353617M" = EmptyString
  /\ contains "/works/" "/works/OL27448W?extra=1" = true
  /\ exists pre tail,
       "/works/OL27448W?extra=1" = pre ++ "/works/" ++ tail
       /\ work_key_of "/works/OL27448W?extra=1" = segment tail.
Proof.
  split; [reflexivity|].
  split; [exact (proj1 (work_key_is_the_segment_after_works "/books/OL7353617M") eq_refl)|].
  split; [reflexivity|].
  destruct (proj1 (proj2 (work_key_is_the_segment_after_works "/works/OL27448W?extra=1"))
              eq_refl) as (pre & tail & Hh & _ & Hk).
  by exists pre, tail.
Defined.




(** Three rows whose second page does not exist: the result is the
    records of the first and of the third, in this order. *)
Example batch_of_three :
  (crawl_book_details_from_csv sample_site sample_parser "books.csv" "book_url" 0%nat).1
  = [ merged (summary_row "Dune" "OL893415W" dune_url) (record_of dune_url dune_page);
      merged (summary_row "Emma" "OL66554W" emma_url) (record_of emma_url heading_page) ].
Proof. vm_compute. reflexivity. Qed.

End Samples.

(** ** Further properties of the batch crawler *)

Section Batch.

Local Open Scope list_scope.

Context {World : Type}.
Variable E : Env World.
Variable html_parser : string -> Bs4.node.

Import Py.

Lemma crawl_cases book_url w :
  exists d,
    crawl_book_details_from_url E html_parser book_url w
    = (Ok d, (requests_get E book_url w).2)
    /\ (d = ∅ /\ page_of html_parser (requests_get E book_url w).1 = None
        \/ exists soup,
             page_of html_parser (requests_get E book_url w).1 = Some soup
             /\ d = record_of book_url soup).
Proof.
  unfold crawl_book_details_from_url. rewrite get_page_page_of.
  destruct (page_of html_parser _) as [soup|] eqn:Hp.
  - exists (record_of book_url soup).
    rewrite BlockFacts.book_details_of_record. split; [done|]. right. by exists soup.
  - exists ∅. split; [done|]. by left.
Qed.


(** X2. When the file cannot be read, or holds no column of the given
    name, the batch crawler returns the empty list without a single
    request. *)
Theorem no_request_without_the_column csv_file url_column w w0 :
  (csv_read E csv_file w = (None, w0)
   \/ exists fieldnames rows,
        csv_read E csv_file w = (Some (fieldnames, rows), w0)
        /\ url_column ∉ fieldnames) ->
  crawl_book_details_from_csv (recording E) html_parser csv_file url_column (w, [])
  = ([], (w0, [])).
Proof.
  unfold crawl_book_details_from_csv. simpl.
  intros [H | (fieldnames & rows & H & Hcol)]; rewrite H; [done|].
  by rewrite bool_decide_eq_false_2.
Qed.

(** The records of the loop are records of pages, each merged with its
    row. *)
Lemma crawl_rows_Forall (P : gmap string pyval -> Prop) url_column rows :
  forall acc w out w',
    (forall row url soup,
        row ∈ rows -> row !! url_column = Some url ->
        P (merged row (record_of url soup))) ->
    Forall P acc ->
    crawl_rows E html_parser url_column rows acc w = (Ok out, w') ->
    Forall P out.
Proof.
  induction rows as [|row rows IH]; intros acc w out w' HP Hacc H; simpl in H.
  - by injection H as <- <-.
  - destruct (row !! url_column) as [url|] eqn:Hurl; [|done].
    destruct (crawl_cases url w) as (d & Hd & Hcase). rewrite Hd in H.
    assert (HP' : forall row0 url0 soup,
               row0 ∈ rows -> row0 !! url_column = Some url0 ->
               P (merged row0 (record_of url0 soup)))
      by (intros; apply HP; [by apply list_elem_of_further | done]).
    destruct Hcase as [[-> _] | (soup & _ & ->)].
    + rewrite bool_decide_eq_true_2 in H by done. by eapply IH.
    + rewrite bool_decide_eq_false_2 in H by apply record_of_nonempty.
      eapply IH; [exact HP' | | exact H].
      apply Forall_app. split; [done|]. constructor; [|done].
      apply HP; [apply list_elem_of_here | done].
Qed.

Lemma merged_dom row url soup : dom (merged row (record_of url soup)) = batch_keys.
Proof.
  unfold merged, batch_keys. rewrite !dom_insert_L, record_of_dom.
  unfold detail_keys. simpl. set_solver.
Qed.

(** X3. All records the batch crawler returns have the same fourteen
    keys: the twelve of a detail record, [original_title] and
    [work_key]. *)
Theorem batch_records_share_their_keys csv_file url_column w :
  Forall (fun d : gmap string pyval => dom d = batch_keys)
    (crawl_book_details_from_csv E html_parser csv_file url_column w).1.
Proof.
  unfold crawl_book_details_from_csv.
  destruct (csv_read E csv_file w) as [[[fieldnames rows]|] w0]; [|done].
  destruct (bool_decide (url_column ∈ fieldnames)); [|done].
  destruct (crawl_rows E html_parser url_column rows [] w0) as [[out|e] w1] eqn:H;
    [|done].
  simpl. eapply crawl_rows_Forall; [|constructor|exact H].
  intros. apply merged_dom.
Qed.

(** X4. The title and the work key of a row are read with a default:
    when the file has no [title] or no [work_key] column, the records
    carry the empty string in its place. *)
Theorem missing_row_columns_default_to_empty
    csv_file url_column w fieldnames rows w0 :
  csv_read E csv_file w = (Some (fieldnames, rows), w0) ->
  Forall (fun row : gmap string string => row !! "title" = None) rows ->
  Forall (fun row : gmap string string => row !! "work_key" = None) rows ->
  Forall (fun d : gmap string pyval =>
            d !! "original_title" = Some (VStr EmptyString)
            /\ d !! "work_key" = Some (VStr EmptyString))
    (crawl_book_details_from_csv E html_parser csv_file url_column w).1.
Proof.
  intros Hcsv Ht Hk. unfold crawl_book_details_from_csv. rewrite Hcsv.
  destruct (bool_decide (url_column ∈ fieldnames)); [|done].
  destruct (crawl_rows E html_parser url_column rows [] w0) as [[out|e] w1] eqn:H;
    [|done].
  simpl. eapply crawl_rows_Forall; [|constructor|exact H].
  intros row url soup Hrow _.
  rewrite Forall_forall in Ht, Hk.
  unfold merged, row_get. rewrite (Ht row Hrow), (Hk row Hrow). simpl.
  split; [by rewrite lookup_insert_ne, lookup_insert_eq | by rewrite lookup_insert_eq].
Qed.

Lemma crawl_rows_acc url_column rows :
  forall acc w,
    crawl_rows E html_parser url_column rows acc w
    = (match (crawl_rows E html_parser url_column rows [] w).1 with
       | Ok out => Ok (acc ++ out)
       | Raise e => Raise e
       end,
       (crawl_rows E html_parser url_column rows [] w).2).
Proof.
  induction rows as [|row rows IH]; intros acc w; simpl.
  - by rewrite app_nil_r.
  - destruct (row !! url_column) as [url|]; [|done].
    destruct (crawl_cases url w) as (d & -> & _).
    destruct (bool_decide (d = ∅)); [by rewrite IH|].
    rewrite IH. rewrite (IH [_]).
    destruct (crawl_rows E html_parser url_column rows [] _) as [[out|e] w1]; simpl;
      [|done].
    by rewrite <- app_assoc.
Qed.

Lemma crawl_rows_app url_column rows1 rows2 :
  forall acc w,
    crawl_rows E html_parser url_column (rows1 ++ rows2) acc w
    = match crawl_rows E html_parser url_column rows1 acc w with
      | (Ok acc1, w1) => crawl_rows E html_parser url_column rows2 acc1 w1
      | (Raise e, w1) => (Raise e, w1)
      end.
Proof.
  induction rows1 as [|row rows1 IH]; intros acc w; simpl; [done|].
  destruct (row !! url_column) as [url|]; [|done].
  destruct (crawl_cases url w) as (d & -> & _).
  by destruct (bool_decide (d = ∅)); rewrite IH.
Qed.

(** X5. The rows are processed one after the other and independently:
    the rows [rows1 ++ rows2] give the records of [rows1] followed by
    the records of [rows2], the second part being run in the world the
    first part leaves. *)
Theorem batch_of_two_parts url_column rows1 rows2 w out1 w1 out2 w2 :
  crawl_rows E html_parser url_column rows1 [] w = (Ok out1, w1) ->
  crawl_rows E html_parser url_column rows2 [] w1 = (Ok out2, w2) ->
  crawl_rows E html_parser url_column (rows1 ++ rows2) [] w = (Ok (out1 ++ out2), w2).
Proof.
  intros H1 H2. rewrite crawl_rows_app, H1, crawl_rows_acc, H2. done.
Qed.

End Batch.

(** ** Further properties of the discovery *)

Section Discovery.

Local Open Scope list_scope.

Context {World : Type}.
Variable E : Env World.
Variable html_parser : string -> Bs4.node.

Import Py.

(** X6. With [max_pages] zero or negative the discovery returns the
    empty list and makes no request. *)
Theorem no_page_no_request subject max_pages w :
  max_pages <= 0 ->
  crawl_openlibrary_books_by_subject (recording E) html_parser subject max_pages (w, [])
  = (Ok [], (w, [])).
Proof.
  intros H. unfold crawl_openlibrary_books_by_subject. by rewrite seqZ_nil.
Qed.



(** The body of the loop over the items, in terms of the title link. *)
Lemma book_of_item_link item :
  book_of_item item
  = match title_link_of item with
    | None => Ok None
    | Some link =>
        bind (Bs4.getitem link "href") (fun href =>
        Ok (Some (<[ "book_url" := "https://openlibrary.org" +:+ href ]>
                   (<[ "work_key" := work_key_of href ]>
                      {[ "title" := text_of link ]}))))
    end.
Proof.
  unfold book_of_item, title_link_of.
  destruct (match Bs4.find "h3" [] item with
            | Some h3 => Bs4.find "a" [] h3
            | None => None
            end); [done|].
  by destruct (Bs4.find "a" _ item).
Qed.





End Discovery.

(** ** Trimmed text and clean keys *)

Module TrimFacts.
Import Py PyFacts SplitFacts.

Lemma lstrip_start s : starts_in Re.Space (lstrip s) = false.
Proof.
  induction s as [|c s IH]; [done|]. simpl.
  destruct (isspace c) eqn:Hc; [done|]. unfold starts_in. simpl. exact Hc.
Qed.

Lemma rstrip_start s :
  starts_in Re.Space s = false -> starts_in Re.Space (rstrip s) = false.
Proof.
  destruct s as [|c s]; [done|]. unfold starts_in. simpl. intros Hc.
  destruct (rstrip s); [by rewrite Hc|]; simpl; exact Hc.
Qed.

Lemma rstrip_end s : from_option isspace false (after None (rstrip s)) = false.
Proof.
  induction s as [|c s IH]; [done|]. simpl.
  destruct (rstrip s) as [|a t].
  - by destruct (isspace c) eqn:Hc.
  - exact IH.
Qed.

(** What [strip] returns is trimmed. *)
Lemma strip_trimmed s : trimmed (strip s).
Proof.
  split; [apply rstrip_start, lstrip_start | apply rstrip_end].
Qed.

Lemma text_of_trimmed e : trimmed (text_of e).
Proof. apply strip_trimmed. Qed.


Lemma segment_free s :
  free_of "/" (segment s) = true /\ free_of "?" (segment s) = true.
Proof.
  induction s as [|a s [IH1 IH2]]; [done|]. simpl.
  destruct (Ascii.eqb a "/") eqn:H1; [done|].
  destruct (Ascii.eqb a "?") eqn:H2; [done|].
  simpl. by rewrite H1, H2, IH1, IH2.
Qed.

(** The work key is empty or the segment after an occurrence of
    [/works/]. *)
Lemma work_key_of_cases href :
  work_key_of href = EmptyString \/ exists tail, work_key_of href = segment tail.
Proof.
  unfold work_key_of. destruct (contains "/works/" href) eqn:H; [|by left].
  right.
  destruct (split_fuel_last _ _ (String.length href) href (le_n _) H)
    as (pre & tail & Hh & Ht & Hl).
  exists tail. unfold split at 3. rewrite Hl.
  by rewrite !first_split, segment_before.
Qed.

End TrimFacts.

Section Keys.

Import Py TrimFacts.

(** X8. A work key never holds a path separator nor a question mark,
    whatever the link it is read from. *)
Theorem work_key_is_clean href :
  free_of "/" (work_key_of href) = true /\ free_of "?" (work_key_of href) = true.
Proof.
  destruct (work_key_of_cases href) as [-> | [tail ->]]; [done|].
  apply segment_free.
Qed.

End Keys.

Section Summaries.

Local Open Scope list_scope.

Context {World : Type}.
Variable E : Env World.
Variable html_parser : string -> Bs4.node.

Import Py TrimFacts.

Lemma book_of_item_shape item book :
  book_of_item item = Ok (Some book) -> summary_shape book.
Proof.
  rewrite book_of_item_link.
  destruct (title_link_of item) as [link|]; [|done].
  destruct (Bs4.getitem link "href") as [href|]; [|done]. simpl.
  intros [= <-]. split.
  - unfold summary_keys. rewrite !dom_insert_L, dom_singleton_L. simpl. set_solver.
  - exists (text_of link), href.
    split; [by rewrite !lookup_insert_ne, lookup_singleton_eq|].
    split; [apply text_of_trimmed|].
    split; [by rewrite lookup_insert_eq|].
    by rewrite lookup_insert_ne, lookup_insert_eq.
Qed.

Lemma page_books_of_Forall (P : gmap string string -> Prop) book_items :
  forall acc l,
    (forall item book, book_of_item item = Ok (Some book) -> P book) ->
    Forall P acc ->
    page_books_of book_items acc = Ok l ->
    Forall P l.
Proof.
  induction book_items as [|item items IH]; intros acc l HP Hacc H; simpl in H.
  - by injection H as <-.
  - destruct (book_of_item item) as [[book|]|] eqn:Hitem; [| |done].
    + eapply IH; [done| |exact H]. apply Forall_app. split; [done|].
      constructor; [|done]. by eapply HP.
    + by eapply IH.
Qed.

Lemma crawl_pages_Forall (P : gmap string string -> Prop) subject pages :
  forall acc w books w',
    (forall item book, book_of_item item = Ok (Some book) -> P book) ->
    Forall P acc ->
    crawl_pages E html_parser subject pages acc w = (Ok books, w') ->
    Forall P books.
Proof.
  induction pages as [|page pages IH]; intros acc w books w' HP Hacc H;
    cbn [crawl_pages] in H.
  - by injection H as <- <-.
  - destruct (get_page E html_parser _ w) as [[soup|] w1]; [|by eapply IH].
    destruct (book_items_of soup) as [|item items]; [by injection H as <- <-|].
    destruct (page_books_of (item :: items) []) as [page_books|] eqn:Hb; [|done].
    eapply IH; [done| |exact H]. apply Forall_app. split; [done|].
    eapply page_books_of_Forall; [exact HP | constructor | exact Hb].
Qed.

(** X9. Every record of the discovery has exactly the keys [title],
    [work_key] and [book_url]; its title is trimmed, its URL is the origin
    of the site followed by the link of the item, and its work key is read
    from that same link. *)
Theorem summaries_have_one_shape subject max_pages w books w' :
  crawl_openlibrary_books_by_subject E html_parser subject max_pages w = (Ok books, w') ->
  Forall summary_shape books.
Proof.
  intros H. eapply crawl_pages_Forall; [|constructor|exact H].
  apply book_of_item_shape.
Qed.

End Summaries.

(** ** Pauses, more pages, and the two crawlers in a row *)

Section Pipeline.

Local Open Scope list_scope.

Context {World : Type}.
Variable E : Env World.
Variable html_parser : string -> Bs4.node.

Import Py.









End Pipeline.

(** ** The year of first publication *)

Module YearFacts.
Import Py Re PyFacts ReFacts SearchFacts.









End YearFacts.

Section Fields.

Import Py TrimFacts YearFacts.





End Fields.

(** ** The numbers of a detail record *)

Module NumberFacts.
Import Py PyFacts PatternFacts.







Lemma str_inj a b : str a = str b -> a = b.
Proof.
  unfold str. intros H.
  assert (Hnn : forall z, Z.to_int z <> Decimal.Pos Decimal.Nil
                          /\ Z.to_int z <> Decimal.Neg Decimal.Nil).
  { intros [|p|p]; simpl; split; try done; intros [= Hp];
      by apply DecimalPos.Unsigned.to_uint_nonnil in Hp. }
  apply (f_equal NilZero.int_of_string) in H.
  rewrite !NilZero.isi in H by apply Hnn.
  injection H as H. by apply DecimalZ.to_int_inj.
Qed.

End NumberFacts.

Section Numbers.

Import Py NumberFacts.


(** X16. The search URLs of two pages are the same only when the pages
    are: each page number of a discovery is requested at an address of
    its own. *)
Theorem search_urls_differ subject page page' :
  search_url subject page = search_url subject page' -> page = page'.
Proof.
  unfold search_url. intros H.
  do 3 apply String.app_inj in H. by apply str_inj.
Qed.

End Numbers.

(** ** The added properties on small inputs *)

Local Open Scope string_scope.
Local Open Scope Z_scope.

(** The first results page of the sample site gives the sample summaries. *)
Lemma sample_discovery :
  crawl_openlibrary_books_by_subject pipeline_site sample_parser "science_fiction" 1 0%nat
  = (Py.Ok discovered_rows, 1%nat).
Proof. vm_compute. reflexivity. Qed.

Lemma no_column_witness :
  (csv_read sample_site "nowhere.csv" 0%nat = (None, 0%nat)
   \/ exists fieldnames rows,
        csv_read sample_site "nowhere.csv" 0%nat = (Some (fieldnames, rows), 0%nat)
        /\ "book_url" ∉ fieldnames)
  /\ crawl_book_details_from_csv (recording sample_site) sample_parser
       "nowhere.csv" "book_url" (0%nat, [])
     = ([], (0%nat, [])).
Proof.
  assert (H : csv_read sample_site "nowhere.csv" 0%nat = (None, 0%nat)
              \/ exists fieldnames rows,
                   csv_read sample_site "nowhere.csv" 0%nat
                   = (Some (fieldnames, rows), 0%nat)
                   /\ "book_url" ∉ fieldnames) by (left; reflexivity).
  split; [exact H|].
  exact (no_request_without_the_column sample_site sample_parser
           "nowhere.csv" "book_url" 0%nat 0%nat H).
Defined.

Lemma row_default_witness :
  csv_read pipeline_site "urls.csv" 0%nat = (Some (["book_url"], url_rows), 0%nat)
  /\ Forall (fun row : gmap string string => row !! "title" = None) url_rows
  /\ Forall (fun row : gmap string string => row !! "work_key" = None) url_rows
  /\ Forall (fun d : gmap string pyval =>
               d !! "original_title" = Some (VStr EmptyString)
               /\ d !! "work_key" = Some (VStr EmptyString))
       (crawl_book_details_from_csv pipeline_site sample_parser
          "urls.csv" "book_url" 0%nat).1.
Proof.
  assert (Ht : Forall (fun row : gmap string string => row !! "title" = None) url_rows)
    by (repeat constructor).
  assert (Hk : Forall (fun row : gmap string string => row !! "work_key" = None) url_rows)
    by (repeat constructor).
  split; [reflexivity|]. split; [exact Ht|]. split; [exact Hk|].
  exact (missing_row_columns_default_to_empty pipeline_site sample_parser
           "urls.csv" "book_url" 0%nat _ url_rows 0%nat eq_refl Ht Hk).
Defined.

Lemma no_page_witness :
  -3 <= 0
  /\ crawl_openlibrary_books_by_subject (recording sample_site) sample_parser
       "science_fiction" (-3) (0%nat, [])
     = (Py.Ok [], (0%nat, [])).
Proof.
  split; [lia|].
  apply (no_page_no_request sample_site sample_parser "science_fiction" (-3) 0%nat). lia.
Defined.

Lemma search_urls_witness :
  search_url "science_fiction" 2 = search_url "science_fiction" (1 + 1) /\ 2 = 1 + 1.
Proof.
  split; [reflexivity|].
  exact (search_urls_differ "science_fiction" 2 (1 + 1) eq_refl).
Defined.

Lemma summaries_witness :
  crawl_openlibrary_books_by_subject pipeline_site sample_parser "science_fiction" 1 0%nat
  = (Py.Ok discovered_rows, 1%nat)
  /\ Forall summary_shape discovered_rows.
Proof.
  split; [exact sample_discovery|].
  exact (summaries_have_one_shape pipeline_site sample_parser "science_fiction" 1 0%nat
           discovered_rows 1%nat sample_discovery).
Defined.



Lemma two_parts_witness :
  crawl_rows sample_site sample_parser "book_url"
    [summary_row "Lost" "OL0W" lost_url] [] 0%nat
  = (Py.Ok [], 1%nat)
  /\ crawl_rows sample_site sample_parser "book_url"
       [summary_row "Emma" "OL66554W" emma_url] [] 1%nat
     = (Py.Ok [merged (summary_row "Emma" "OL66554W" emma_url)
                 (record_of emma_url heading_page)], 2%nat)
  /\ crawl_rows sample_site sample_parser "book_url"
       ([summary_row "Lost" "OL0W" lost_url] ++ [summary_row "Emma" "OL66554W" emma_url])%list
       [] 0%nat
     = (Py.Ok ([] ++ [merged (summary_row "Emma" "OL66554W" emma_url)
                        (record_of emma_url heading_page)])%list, 2%nat).
Proof.
  assert (H1 : crawl_rows sample_site sample_parser "book_url"
                 [summary_row "Lost" "OL0W" lost_url] [] 0%nat = (Py.Ok [], 1%nat))
    by (vm_compute; reflexivity).
  assert (H2 : crawl_rows sample_site sample_parser "book_url"
                 [summary_row "Emma" "OL66554W" emma_url] [] 1%nat
               = (Py.Ok [merged (summary_row "Emma" "OL66554W" emma_url)
                           (record_of emma_url heading_page)], 2%nat))
    by (vm_compute; reflexivity).
  split; [exact H1|]. split; [exact H2|].
  exact (batch_of_two_parts sample_site sample_parser "book_url" _ _ 0%nat _ 1%nat _ 2%nat
           H1 H2).
Defined.



